(** * Ec2RunTask: placement accumulators, deferred parameters and validation

    A shallow embedding of
    [packages/@aws-cdk/aws-ecs/lib/ec2/ec2-run-task.ts]: the constructor of
    [Ec2RunTask], its four placement methods, [validate] and
    [validateNoNetworkingProps], together with the deferred values
    ([cdk.Token]) the constructor stores in [_parameters]. *)

From stdpp Require Import base option list strings gmap.

Open Scope string_scope.
Set Warnings "-register-all".

(** ** JavaScript values

    The entries pushed on the accumulators are object literals; an object
    literal is kept as its fields in the order they are written. *)

Inductive Value : Type :=
| VUndefined
| VString (s : string)
| VArray (items : list Value)
| VObject (fields : list (string * Value)).

(** [xs.push(x)] on an array. *)
Definition push {A : Type} (xs : list A) (x : A) : list A := xs ++ [x].

(** ** Deferred values *)

Module DeferredValue.
Section Deferred.
(** [S] is the mutable state a resolver closure reads when it is invoked,
    [V] the type of concrete values. *)
Context {S V : Type}.

(** Modelled from the spec: [cdk.Token] lives in the package
    [@aws-cdk/cdk], whose sources are not at hand. A deferred value is the
    tagged variant [Concrete(value) | Deferred(resolverClosure)]; a
    resolver may return another deferred value. *)
Inductive t : Type :=
| Concrete (v : V)
| Deferred (resolver : S -> t).

(** Modelled from the spec: the chain of resolvers behind a deferred value
    is followed until a concrete value is reached. Every application of a
    resolver closure is counted in [calls]. *)
Fixpoint flatten (s : S) (calls : nat) (d : t) : V * nat :=
  match d with
  | Concrete v => (v, calls)
  | Deferred resolver => flatten s (Datatypes.S calls) (resolver s)
  end.

(** What one call of [resolve()] yields: the concrete value, the deferred
    value as it is left behind (the cache), and how many resolver
    invocations this call made. *)
Record Resolution : Type := {
  value : V;
  cell : t;
  invoked : nat
}.

(** Modelled from the spec: [resolve()] of the missing [cdk.Token]. The
    concrete value reached is cached in place of the resolver, so that a
    later call finds [Concrete] and invokes nothing. *)
Definition resolve (s : S) (d : t) : Resolution :=
  let '(v, n) := flatten s 0 d in
  {| value := v; cell := Concrete v; invoked := n |}.

(** A run of resolutions of one deferred value, one per state in
    [states]: the state is what the resolver would read if it were invoked
    by that resolution. Returns the values in order, the cell left behind
    and the total number of resolver invocations. *)
Fixpoint resolve_each (states : list S) (d : t) : list V * t * nat :=
  match states with
  | [] => ([], d, 0)
  | s :: rest =>
      let r := resolve s d in
      let '(vs, d', n) := resolve_each rest (cell r) in
      (value r :: vs, d', invoked r + n)
  end.
End Deferred.
Arguments t : clear implicits.
Arguments Resolution : clear implicits.
End DeferredValue.

Abbreviation Token := DeferredValue.t.

(** ** Collaborators' data *)

(** [NetworkMode] of a task definition (the constructor's comment lists the
    modes other than [AwsVpc]). *)
Inductive NetworkMode : Type := NetNone | Bridge | AwsVpc | Host.

Global Instance NetworkMode_eq_dec : EqDecision NetworkMode.
Proof. solve_decision. Defined.

(** The private accumulators of an [Ec2RunTask]. The two resolver closures
    of the constructor capture [this] and read exactly these two fields. *)
Record Accumulators : Type := {
  constraints : list Value;
  strategies : list Value
}.

(** An entry of [_parameters]: a plain value or a [cdk.Token]. *)
Inductive ParameterValue : Type :=
| Plain (v : Value)
| Tok (d : Token Accumulators Value).

(** ** Entries of the two accumulators, as the object literals of the source *)

(** [{ Type: 'distinctInstance' }] *)
Definition distinctInstance : Value :=
  VObject [("Type", VString "distinctInstance")].

(** [{ Type: 'memberOf', expression }] *)
Definition memberOf (expression : string) : Value :=
  VObject [("Type", VString "memberOf"); ("expression", VString expression)].

(** [{ Type: 'spread', Field: field }] *)
Definition spread (field : string) : Value :=
  VObject [("Type", VString "spread"); ("Field", VString field)].

(** [{ Type: 'binpack', Field: resource }]; a [BinPackResource] is a string
    enumeration, at run time the string itself. *)
Definition binpack (resource : string) : Value :=
  VObject [("Type", VString "binpack"); ("Field", VString resource)].

(** [{ Type: 'random' }] *)
Definition random : Value :=
  VObject [("Type", VString "random")].

(** The resolver closure of [_parameters.PlacementConstraints]:
    [() => this.constraints.length > 0 ? this.constraints : undefined]. *)
Definition PlacementConstraints_resolver (this : Accumulators) : Value :=
  if (0 <? length (constraints this))%nat then VArray (constraints this)
  else VUndefined.

(** The resolver closure of [_parameters.PlacementStrategy]:
    [() => this.constraints.length > 0 ? this.strategies : undefined]. *)
Definition PlacementStrategy_resolver (this : Accumulators) : Value :=
  if (0 <? length (constraints this))%nat then VArray (strategies this)
  else VUndefined.

(** Modelled from the spec: [new cdk.Token(f)], the constructor of the missing
    [cdk.Token], for a closure [f] that returns a plain value: the deferred
    value whose resolver is [f]. *)
Definition new_Token (f : Accumulators -> Value) : Token Accumulators Value :=
  DeferredValue.Deferred (fun this => DeferredValue.Concrete (f this)).

(** ** The class and its collaborators *)

(** Types of the collaborating packages ([@aws-cdk/aws-ec2], [@aws-cdk/cdk],
    [../base], [../cluster]), into which this development never looks.
    [Construct] is the state of the construct tree a new construct is
    attached to (the [scope]), with the constructs the properties refer to;
    an [ICluster] is a reference to a cluster of that tree; [Inherited] is
    what a [BaseRunTask] keeps besides [connections] and [_parameters]. *)
Class Packages : Type := {
  Compatibility : Type;
  ContainerDefinition : Type;
  VpcNetwork : Type;
  VpcPlacementStrategy : Type;
  ISecurityGroup : Type;
  ICluster : Type;
  Connections : Type;
  Construct : Type;
  Inherited : Type
}.

Section Model.
Context {P : Packages}.

(** The fields of a [TaskDefinition] the constructor reads. *)
Record TaskDefinition : Type := {
  compatibility : Compatibility;
  defaultContainer : option ContainerDefinition;
  networkMode : NetworkMode
}.

(** [Ec2RunTaskProps]; [taskDefinition] and [cluster] come from
    [BaseRunTaskProps]. An optional property is an [option]. *)
Record Ec2RunTaskProps : Type := {
  taskDefinition : TaskDefinition;
  cluster : ICluster;
  vpcPlacement : option VpcPlacementStrategy;
  securityGroup : option ISecurityGroup;
  placeOnDistinctInstances : option bool
}.

(** The state an [Ec2RunTask] inherits from [BaseRunTask]. *)
Record BaseRunTask : Type := {
  connections : Connections;
  _parameters : gmap string ParameterValue;
  inherited : Inherited
}.

(** An [Ec2RunTask] object: the inherited state and the three private
    fields, [this.cluster] and the two accumulators. *)
Record Ec2RunTask : Type := {
  base : BaseRunTask;
  this_cluster : ICluster;
  acc : Accumulators
}.

(** *** Throwing computations over the construct tree *)

Inductive Outcome (A : Type) : Type :=
| Returned (a : A) (tree : Construct)
| Thrown (message : string) (tree : Construct).
Arguments Returned {A} a tree.
Arguments Thrown {A} message tree.

Definition M (A : Type) : Type := Construct -> Outcome A.

(** [return a] *)
Global Instance M_ret : MRet M :=
  fun A a tree => Returned a tree.

(** Sequencing: what [m] throws passes through, with the tree as it was when
    it was thrown. *)
Global Instance M_bind : MBind M :=
  fun A B k m tree =>
    match m tree with
    | Returned a tree' => k a tree'
    | Thrown message tree' => Thrown message tree'
    end.

(** [throw new Error(message)] *)
Definition throw {A : Type} (message : string) : M A :=
  fun tree => Thrown message tree.

(** Reading the tree. *)
Definition gets {A : Type} (f : Construct -> A) : M A :=
  fun tree => Returned (f tree) tree.

(** *** Missing code, taken as parameters

    - [isEc2Compatible] of [../util];
    - [BuiltInAttributes.InstanceId] of [./ec2-service];
    - of an [ICluster]: [cluster.vpc], which is fixed,
      [cluster.connections.securityGroups] and [cluster.hasEc2Capacity],
      which are read from the cluster as it is at that time;
    - the constructor of [BaseRunTask], [super(scope, id, props)];
    - [BaseRunTask.validate], [super.validate()];
    - [BaseRunTask.configureAwsVpcNetworking], a method of the base class:
      it sees the inherited state, not the private fields of [Ec2RunTask];
    - [Connections.addSecurityGroup(...securityGroups)]. *)
Class Missing : Type := {
  isEc2Compatible : Compatibility -> bool;
  BuiltInAttributes_InstanceId : string;
  vpc : ICluster -> VpcNetwork;
  securityGroups : ICluster -> Construct -> list ISecurityGroup;
  hasEc2Capacity : ICluster -> Construct -> bool;
  BaseRunTask_new : string -> Ec2RunTaskProps -> M BaseRunTask;
  BaseRunTask_validate : BaseRunTask -> Construct -> list string;
  configureAwsVpcNetworking :
    VpcNetwork -> bool -> option VpcPlacementStrategy -> option ISecurityGroup ->
    BaseRunTask -> M BaseRunTask;
  addSecurityGroup : list ISecurityGroup -> Connections -> Connections
}.

Context {C : Missing}.

(** *** Field updates *)

(** [this._parameters[name] = p] *)
Definition set_parameter (name : string) (p : ParameterValue)
    (this : Ec2RunTask) : Ec2RunTask :=
  {| base := {| connections := connections (base this);
                _parameters := <[name := p]> (_parameters (base this));
                inherited := inherited (base this) |};
     this_cluster := this_cluster this;
     acc := acc this |}.

(** The inherited part of [this] replaced, as a method of the base class
    leaves it. *)
Definition set_base (b : BaseRunTask) (this : Ec2RunTask) : Ec2RunTask :=
  {| base := b; this_cluster := this_cluster this; acc := acc this |}.

(** [this.connections] replaced. *)
Definition set_connections (c : Connections) (this : Ec2RunTask) : Ec2RunTask :=
  {| base := {| connections := c;
                _parameters := _parameters (base this);
                inherited := inherited (base this) |};
     this_cluster := this_cluster this;
     acc := acc this |}.

(** [this.constraints.push(entry)] *)
Definition push_constraint (entry : Value) (this : Ec2RunTask) : Ec2RunTask :=
  {| base := base this;
     this_cluster := this_cluster this;
     acc := {| constraints := push (constraints (acc this)) entry;
               strategies := strategies (acc this) |} |}.

(** [this.strategies.push(entry)] *)
Definition push_strategy (entry : Value) (this : Ec2RunTask) : Ec2RunTask :=
  {| base := base this;
     this_cluster := this_cluster this;
     acc := {| constraints := constraints (acc this);
               strategies := push (strategies (acc this)) entry |} |}.

(** *** The source *)

(** The messages of the errors the constructor throws, and of the one
    [validate()] reports. *)
Definition not_ec2_compatible : string :=
  "Supplied TaskDefinition is not configured for compatibility with EC2".

Definition no_essential_container : string :=
  "A TaskDefinition must have at least one essential container".

Definition no_networking_props : string :=
  "vpcPlacement and securityGroup can only be used in AwsVpc networking mode".

Definition needs_ec2_capacity : string :=
  "Cluster for this service needs Ec2 capacity. Call addXxxCapacity() on the cluster.".

(** [validateNoNetworkingProps(props)] *)
Definition validateNoNetworkingProps (props : Ec2RunTaskProps) : M unit :=
  match vpcPlacement props, securityGroup props with
  | None, None => mret tt
  | _, _ => throw no_networking_props
  end.

(** [new Ec2RunTask(scope, id, props)], run on the tree of [scope]. *)
Definition Ec2RunTask_new (id : string) (props : Ec2RunTaskProps) : M Ec2RunTask :=
  if negb (isEc2Compatible (compatibility (taskDefinition props))) then
    throw not_ec2_compatible
  else
  match defaultContainer (taskDefinition props) with
  | None => throw no_essential_container
  | Some _ =>
    b ← BaseRunTask_new id props;
    let this := {| base := b;
                   this_cluster := cluster props;
                   acc := {| constraints := []; strategies := [] |} |} in
    let this := set_parameter "LaunchType" (Plain (VString "EC2")) this in
    let this := set_parameter "PlacementConstraints"
                  (Tok (new_Token PlacementConstraints_resolver)) this in
    let this := set_parameter "PlacementStrategy"
                  (Tok (new_Token PlacementStrategy_resolver)) this in
    this ← (if decide (networkMode (taskDefinition props) = AwsVpc) then
              b ← configureAwsVpcNetworking (vpc (cluster props)) false
                    (vpcPlacement props) (securityGroup props) (base this);
              mret (set_base b this)
            else
              validateNoNetworkingProps props;;
              groups ← gets (securityGroups (cluster props));
              mret (set_connections
                      (addSecurityGroup groups (connections (base this))) this));
    mret (match placeOnDistinctInstances props with
          | Some true => push_constraint distinctInstance this
          | _ => this
          end)
  end.

(** [placeOnMemberOf(...expressions)] *)
Definition placeOnMemberOf (expressions : list string)
    (this : Ec2RunTask) : Ec2RunTask :=
  fold_left (fun this expression => push_constraint (memberOf expression) this)
    expressions this.

(** [placeSpreadAcross(...fields)] *)
Definition placeSpreadAcross (fields : list string)
    (this : Ec2RunTask) : Ec2RunTask :=
  let fields :=
    if (length fields =? 0)%nat then [BuiltInAttributes_InstanceId] else fields in
  fold_left (fun this field => push_strategy (spread field) this) fields this.

(** [placePackedBy(resource)] *)
Definition placePackedBy (resource : string) (this : Ec2RunTask) : Ec2RunTask :=
  push_strategy (binpack resource) this.

(** [placeRandomly()] *)
Definition placeRandomly (this : Ec2RunTask) : Ec2RunTask :=
  push_strategy random this.

(** [validate()], run on the tree as it is when the construct is validated. *)
Definition validate (this : Ec2RunTask) (tree : Construct) : list string :=
  let ret := BaseRunTask_validate (base this) tree in
  if negb (hasEc2Capacity (this_cluster this) tree) then push ret needs_ec2_capacity
  else ret.

(** *** Declaration code and synthesis *)

(** A call of one of the public placement methods. *)
Inductive Call : Type :=
| PlaceOnMemberOf (expressions : list string)
| PlaceSpreadAcross (fields : list string)
| PlacePackedBy (resource : string)
| PlaceRandomly.

Definition call (this : Ec2RunTask) (c : Call) : Ec2RunTask :=
  match c with
  | PlaceOnMemberOf expressions => placeOnMemberOf expressions this
  | PlaceSpreadAcross fields => placeSpreadAcross fields this
  | PlacePackedBy resource => placePackedBy resource this
  | PlaceRandomly => placeRandomly this
  end.

(** The calls of [cs], made one after the other on [this]. *)
Definition calls (cs : list Call) (this : Ec2RunTask) : Ec2RunTask :=
  fold_left call cs this.

(** Resolution of the entry [name] of [_parameters] in the current state of
    the object: a token is resolved against the accumulators as they are
    now, a plain value is itself. [None]: there is no such entry. *)
Definition resolveParameter (name : string) (this : Ec2RunTask) : option Value :=
  match _parameters (base this) !! name with
  | Some (Tok d) => Some (DeferredValue.value (DeferredValue.resolve (acc this) d))
  | Some (Plain v) => Some v
  | None => None
  end.

(** The fields [placeSpreadAcross(...fields)] spreads across. *)
Definition spread_fields (fields : list string) : list string :=
  match fields with
  | [] => [BuiltInAttributes_InstanceId]
  | _ => fields
  end.

(** The constraint entries a call appends, in order. *)
Definition appended_constraints (c : Call) : list Value :=
  match c with
  | PlaceOnMemberOf expressions => map memberOf expressions
  | _ => []
  end.

(** The strategy entries a call appends, in order. *)
Definition appended_strategies (c : Call) : list Value :=
  match c with
  | PlaceOnMemberOf _ => []
  | PlaceSpreadAcross fields => map spread (spread_fields fields)
  | PlacePackedBy resource => [binpack resource]
  | PlaceRandomly => [random]
  end.

(** [placeOnDistinctInstances] is set and true. *)
Definition distinct (props : Ec2RunTaskProps) : bool :=
  match placeOnDistinctInstances props with
  | Some true => true
  | _ => false
  end.

(** The entries the constructor writes into [_parameters], in the order it
    writes them. *)
Definition constructor_parameters (m : gmap string ParameterValue) :
    gmap string ParameterValue :=
  <["PlacementStrategy" := Tok (new_Token PlacementStrategy_resolver)]>
    (<["PlacementConstraints" := Tok (new_Token PlacementConstraints_resolver)]>
       (<["LaunchType" := Plain (VString "EC2")]> m)).

(** What the base class is taken to guarantee about [_parameters]: its
    method [configureAwsVpcNetworking], when it returns, has left every
    entry of [_parameters] as it was. *)
Definition keeps_parameters : Prop :=
  forall v assignPublicIp placement group b tree b' tree',
    configureAwsVpcNetworking v assignPublicIp placement group b tree
      = Returned b' tree' ->
    _parameters b' = _parameters b.
End Model.

Arguments Returned {P A} a tree.
Arguments Thrown {P A} message tree.
Arguments Missing P : clear implicits.
Arguments keeps_parameters {P} C.

(** ** A small instance of the collaborators

    Used to run the model on concrete declarations. Compatibilities,
    containers, networks, clusters and security groups are named by strings;
    the construct tree is the list of the identifiers attached to the scope.
    A cluster has capacity when an auto-scaling group is attached under its
    name, and its security groups are those of that group. *)

Definition demo_packages : Packages := {|
  Compatibility := string;
  ContainerDefinition := string;
  VpcNetwork := string;
  VpcPlacementStrategy := string;
  ISecurityGroup := string;
  ICluster := string;
  Connections := list string;
  Construct := list string;
  Inherited := option (string * list string)
|}.

(** The base constructor refuses an identifier already attached to the
    scope, and attaches the new one; the networking set-up records the
    network and adds the given security group to the connections. *)
Definition demo_isEc2Compatible (c : string) : bool :=
  bool_decide (c = "EC2") || bool_decide (c = "EC2_AND_FARGATE").

Definition demo_BaseRunTask_new (id : string)
    (props : Ec2RunTaskProps (P := demo_packages)) : M (P := demo_packages) BaseRunTask :=
  fun tree : list string =>
    if bool_decide (id ∈ tree)
    then Thrown (P := demo_packages) "There is already a Construct with this name" tree
    else Returned (P := demo_packages)
           (@Build_BaseRunTask demo_packages [] ∅ None) (tree ++ [id])%list.

Definition demo_configureAwsVpcNetworking (v : string) (assignPublicIp : bool)
    (placement group : option string) (b : BaseRunTask (P := demo_packages)) :
    M (P := demo_packages) BaseRunTask :=
  fun tree : list string =>
    Returned (P := demo_packages)
      (@Build_BaseRunTask demo_packages
         (connections b ++ from_option (λ g, [g]) [] group)%list
         (_parameters b)
         (Some (v, [])))
      tree.

Definition demo_hasEc2Capacity (cluster : string) (tree : list string) : bool :=
  bool_decide (String.append cluster "/AutoScalingGroup" ∈ tree).

Definition demo_securityGroups (cluster : string) (tree : list string) : list string :=
  if demo_hasEc2Capacity cluster tree
  then [String.append cluster "/AutoScalingGroup/InstanceSecurityGroup"]
  else [].

Definition demo : Missing demo_packages :=
  @Build_Missing demo_packages
    demo_isEc2Compatible
    "instanceId"
    (fun cluster : string => String.append cluster "/Vpc")
    demo_securityGroups
    demo_hasEc2Capacity
    demo_BaseRunTask_new
    (fun _ _ => [])
    demo_configureAwsVpcNetworking
    (fun (groups : list string) (c : list string) => (c ++ groups)%list).

Definition demo_taskDefinition (c : string) (container : option string)
    (mode : NetworkMode) : TaskDefinition (P := demo_packages) :=
  @Build_TaskDefinition demo_packages c container mode.

(** Properties over these names, for the cluster ["Cluster"]. *)
Definition demo_props_of (c : string) (container : option string)
    (mode : NetworkMode) (placement group : option string)
    (distinctInstances : option bool) : Ec2RunTaskProps (P := demo_packages) :=
  @Build_Ec2RunTaskProps demo_packages
    (demo_taskDefinition c container mode)
    "Cluster" placement group distinctInstances.

(** A bridge-mode EC2 task, nothing optional set. *)
Definition demo_props : Ec2RunTaskProps (P := demo_packages) :=
  demo_props_of "EC2" (Some "ContainerDef") Bridge None None None.

(** The same, asking for distinct instances. *)
Definition demo_props_distinct : Ec2RunTaskProps (P := demo_packages) :=
  demo_props_of "EC2" (Some "ContainerDef") Bridge None None (Some true).

(** A Fargate task definition in AwsVpc mode. *)
Definition demo_props_fargate : Ec2RunTaskProps (P := demo_packages) :=
  demo_props_of "Fargate" (Some "ContainerDef") AwsVpc None None None.

(** An EC2 task definition without a container. *)
Definition demo_props_no_container : Ec2RunTaskProps (P := demo_packages) :=
  demo_props_of "EC2" None Bridge None None None.

(** A bridge-mode task given a security group. *)
Definition demo_props_bridge_group : Ec2RunTaskProps (P := demo_packages) :=
  demo_props_of "EC2" (Some "ContainerDef") Bridge None (Some "sg-task") None.

(** An AwsVpc-mode task given a placement and a security group. *)
Definition demo_props_awsvpc : Ec2RunTaskProps (P := demo_packages) :=
  demo_props_of "EC2" (Some "ContainerDef") AwsVpc
    (Some "Public") (Some "sg-task") None.


Definition demo_tree_capacity : list string :=
  ["Vpc"; "Cluster"; "Cluster/AutoScalingGroup"].

(** A variant of the instance whose base constructor has already written
    entries into [_parameters], one of them under the key [LaunchType]. *)
Definition demo_BaseRunTask_new_with_parameters (id : string)
    (props : Ec2RunTaskProps (P := demo_packages)) : M (P := demo_packages) BaseRunTask :=
  fun tree : list string =>
    if bool_decide (id ∈ tree)
    then Thrown (P := demo_packages) "There is already a Construct with this name" tree
    else Returned (P := demo_packages)
           (@Build_BaseRunTask demo_packages []
              (<["Cluster" := Plain (VString "arn:cluster")]>
                 (<["LaunchType" := Plain (VString "FARGATE")]> ∅))
              None)
           (tree ++ [id])%list.

Definition demo_with_parameters : Missing demo_packages :=
  @Build_Missing demo_packages
    demo_isEc2Compatible
    "instanceId"
    (fun cluster : string => String.append cluster "/Vpc")
    demo_securityGroups
    demo_hasEc2Capacity
    demo_BaseRunTask_new_with_parameters
    (fun _ _ => [])
    demo_configureAwsVpcNetworking
    (fun (groups : list string) (c : list string) => (c ++ groups)%list).

(** An object with nothing in its accumulators, as it is before any
    placement call. *)
Definition demo_object : Ec2RunTask (P := demo_packages) :=
  @Build_Ec2RunTask demo_packages
    (@Build_BaseRunTask demo_packages [] ∅ None)
    "Cluster"
    {| constraints := []; strategies := [] |}.

(** * Properties *)

Section Properties.
Context {P : Packages} {C : Missing P}.
Implicit Types (this : Ec2RunTask) (props : Ec2RunTaskProps) (tree : Construct).
Implicit Types (cs : list Call) (id : string).

Local Open Scope list_scope.

(** ** The placement methods on the accumulators *)

Lemma fold_push_constraint (f : string -> Value) (xs : list string) this :
  fold_left (fun this x => push_constraint (f x) this) xs this
  = {| base := base this;
       this_cluster := this_cluster this;
       acc := {| constraints := constraints (acc this) ++ map f xs;
                 strategies := strategies (acc this) |} |}.
Proof.
  revert this. induction xs as [|x xs IH]; intros this; simpl.
  - rewrite app_nil_r. by destruct this as [? ? []].
  - rewrite IH. simpl. unfold push. by rewrite <- app_assoc.
Qed.

Lemma fold_push_strategy (f : string -> Value) (xs : list string) this :
  fold_left (fun this x => push_strategy (f x) this) xs this
  = {| base := base this;
       this_cluster := this_cluster this;
       acc := {| constraints := constraints (acc this);
                 strategies := strategies (acc this) ++ map f xs |} |}.
Proof.
  revert this. induction xs as [|x xs IH]; intros this; simpl.
  - rewrite app_nil_r. by destruct this as [? ? []].
  - rewrite IH. simpl. unfold push. by rewrite <- app_assoc.
Qed.

Lemma spread_fields_length (fields : list string) :
  (if (length fields =? 0)%nat then [BuiltInAttributes_InstanceId] else fields)
  = spread_fields fields.
Proof. by destruct fields. Qed.

(** One call leaves the inherited state and [this.cluster] alone and appends
    its entries to the two accumulators. *)
Lemma call_eq this (c : Call) :
  call this c
  = {| base := base this;
       this_cluster := this_cluster this;
       acc := {| constraints := constraints (acc this) ++ appended_constraints c;
                 strategies := strategies (acc this) ++ appended_strategies c |} |}.
Proof.
  destruct c as [expressions|fields|resource|]; simpl.
  - unfold placeOnMemberOf. rewrite fold_push_constraint. by rewrite app_nil_r.
  - unfold placeSpreadAcross. rewrite spread_fields_length, fold_push_strategy.
    by rewrite app_nil_r.
  - unfold placePackedBy, push_strategy, push. by rewrite app_nil_r.
  - unfold placeRandomly, push_strategy, push. by rewrite app_nil_r.
Qed.

Lemma calls_eq cs this :
  calls cs this
  = {| base := base this;
       this_cluster := this_cluster this;
       acc := {| constraints :=
                   constraints (acc this) ++ concat (map appended_constraints cs);
                 strategies :=
                   strategies (acc this) ++ concat (map appended_strategies cs) |} |}.
Proof.
  unfold calls. revert this. induction cs as [|c cs IH]; intros this; simpl.
  - rewrite !app_nil_r. by destruct this as [? ? []].
  - rewrite IH, call_eq. simpl. by rewrite <- !app_assoc.
Qed.

Lemma calls_app cs cs' this : calls (cs ++ cs') this = calls cs' (calls cs this).
Proof. unfold calls. apply fold_left_app. Qed.

(** The accumulators only grow: what was there before a run of calls is a
    prefix of what is there after it. *)
Lemma calls_constraints_prefix cs this :
  constraints (acc this) `prefix_of` constraints (acc (calls cs this)).
Proof. rewrite calls_eq. simpl. by eexists. Qed.

Lemma calls_strategies_prefix cs this :
  strategies (acc this) `prefix_of` strategies (acc (calls cs this)).
Proof. rewrite calls_eq. simpl. by eexists. Qed.

(** ** Resolution of the tokens of the constructor *)

Lemma resolveParameter_Tok (name : string) (f : Accumulators -> Value) this :
  _parameters (base this) !! name = Some (Tok (new_Token f)) ->
  resolveParameter name this = Some (f (acc this)).
Proof. intros H. unfold resolveParameter. by rewrite H. Qed.

(** ** What a returned constructor has done *)

Lemma distinct_false props :
  placeOnDistinctInstances props <> Some true -> distinct props = false.
Proof. unfold distinct. by destruct (placeOnDistinctInstances props) as [[]|]. Qed.

Lemma Ec2RunTask_new_returned id props tree this tree' :
  Ec2RunTask_new id props tree = Returned this tree' ->
  isEc2Compatible (compatibility (taskDefinition props)) = true
  /\ is_Some (defaultContainer (taskDefinition props))
  /\ this_cluster this = cluster props
  /\ acc this = {| constraints := if distinct props then [distinctInstance] else [];
                   strategies := [] |}
  /\ exists b tree1,
       BaseRunTask_new id props tree = Returned b tree1
       /\ ((networkMode (taskDefinition props) = AwsVpc
            /\ configureAwsVpcNetworking (vpc (cluster props)) false
                 (vpcPlacement props) (securityGroup props)
                 {| connections := connections b;
                    _parameters := constructor_parameters (_parameters b);
                    inherited := inherited b |} tree1
               = Returned (base this) tree')
           \/ (networkMode (taskDefinition props) <> AwsVpc
               /\ vpcPlacement props = None /\ securityGroup props = None
               /\ _parameters (base this) = constructor_parameters (_parameters b)
               /\ tree' = tree1)).
Proof.
  unfold Ec2RunTask_new, distinct.
  destruct (isEc2Compatible _) eqn:Hc; simpl; [|discriminate].
  destruct (defaultContainer _) as [container|] eqn:Hd; [|discriminate].
  unfold mbind at 1, M_bind at 1.
  destruct (BaseRunTask_new id props tree) as [b tree1|] eqn:Hb; [|discriminate].
  unfold mbind at 1, M_bind at 1.
  destruct (decide (networkMode (taskDefinition props) = AwsVpc)) as [Hm|Hm].
  - unfold mbind, M_bind, mret, M_ret.
    destruct (configureAwsVpcNetworking _ _ _ _ _ _) as [b' tree2|] eqn:Hn;
      [|discriminate].
    intros [= <- <-].
    split; [done|]. split; [by eexists|].
    split; [by destruct (placeOnDistinctInstances props) as [[]|]|].
    split; [by destruct (placeOnDistinctInstances props) as [[]|]|].
    exists b, tree1. split; [done|]. left. split; [done|].
    simpl in Hn. by destruct (placeOnDistinctInstances props) as [[]|].
  - unfold validateNoNetworkingProps, mbind, M_bind, mret, M_ret, throw, gets.
    destruct (vpcPlacement props); [discriminate|].
    destruct (securityGroup props); [discriminate|].
    intros [= <- <-].
    split; [done|]. split; [by eexists|].
    split; [by destruct (placeOnDistinctInstances props) as [[]|]|].
    split; [by destruct (placeOnDistinctInstances props) as [[]|]|].
    exists b, tree1. split; [done|]. right.
    repeat split; try done.
    by destruct (placeOnDistinctInstances props) as [[]|].
Qed.

(** The entries of [_parameters] the constructor wrote are there when it
    returns, provided the base class keeps them. *)
Lemma Ec2RunTask_new_parameters id props tree this tree' :
  keeps_parameters C ->
  Ec2RunTask_new id props tree = Returned this tree' ->
  exists m, _parameters (base this) = constructor_parameters m.
Proof.
  intros Hkeep Hnew.
  apply Ec2RunTask_new_returned in Hnew
    as (_ & _ & _ & _ & b & tree1 & _ & [[_ Hn]|(_ & _ & _ & Hp & _)]).
  - apply Hkeep in Hn. simpl in Hn. by exists (_parameters b).
  - by exists (_parameters b).
Qed.

Lemma constructor_parameters_LaunchType (m : gmap string ParameterValue) :
  constructor_parameters m !! "LaunchType" = Some (Plain (VString "EC2")).
Proof. unfold constructor_parameters. by simplify_map_eq. Qed.

Lemma constructor_parameters_PlacementConstraints (m : gmap string ParameterValue) :
  constructor_parameters m !! "PlacementConstraints"
  = Some (Tok (new_Token PlacementConstraints_resolver)).
Proof. unfold constructor_parameters. by simplify_map_eq. Qed.

Lemma constructor_parameters_PlacementStrategy (m : gmap string ParameterValue) :
  constructor_parameters m !! "PlacementStrategy"
  = Some (Tok (new_Token PlacementStrategy_resolver)).
Proof. unfold constructor_parameters. by simplify_map_eq. Qed.

(** After the constructor and any run of calls, the two tokens resolve to
    what their closures compute on the accumulators as they are then. *)
Lemma resolve_PlacementConstraints id props tree this tree' cs :
  keeps_parameters C ->
  Ec2RunTask_new id props tree = Returned this tree' ->
  resolveParameter "PlacementConstraints" (calls cs this)
  = Some (PlacementConstraints_resolver (acc (calls cs this))).
Proof.
  intros Hkeep Hnew. apply resolveParameter_Tok.
  destruct (Ec2RunTask_new_parameters _ _ _ _ _ Hkeep Hnew) as [m Hm].
  rewrite calls_eq. simpl. rewrite Hm.
  apply constructor_parameters_PlacementConstraints.
Qed.

Lemma resolve_PlacementStrategy id props tree this tree' cs :
  keeps_parameters C ->
  Ec2RunTask_new id props tree = Returned this tree' ->
  resolveParameter "PlacementStrategy" (calls cs this)
  = Some (PlacementStrategy_resolver (acc (calls cs this))).
Proof.
  intros Hkeep Hnew. apply resolveParameter_Tok.
  destruct (Ec2RunTask_new_parameters _ _ _ _ _ Hkeep Hnew) as [m Hm].
  rewrite calls_eq. simpl. rewrite Hm.
  apply constructor_parameters_PlacementStrategy.
Qed.

(** The accumulators after the constructor and a run of calls. *)
Lemma acc_after_calls id props tree this tree' cs :
  Ec2RunTask_new id props tree = Returned this tree' ->
  acc (calls cs this)
  = {| constraints := (if distinct props then [distinctInstance] else [])
                      ++ concat (map appended_constraints cs);
       strategies := concat (map appended_strategies cs) |}.
Proof.
  intros Hnew. apply Ec2RunTask_new_returned in Hnew as (_ & _ & _ & Hacc & _).
  rewrite calls_eq. simpl. by rewrite Hacc.
Qed.
(** ** The claims *)

(** C1. The claim: the PlacementStrategy deferred value resolves to the
    accumulated strategies whenever that list is non-empty, whatever the
    constraints, and to absent when it is empty. The resolver tests the
    length of [this.constraints], not of [this.strategies]: after a
    constructor without [placeOnDistinctInstances] and one
    [placeSpreadAcross()], the strategies hold one spread entry and the token
    resolves to [undefined]; and with [placeOnDistinctInstances] alone, the
    strategies are empty and the token resolves to an empty array. *)
Theorem PlacementStrategy_tests_constraints id props tree this tree' :
  keeps_parameters C ->
  Ec2RunTask_new id props tree = Returned this tree' ->
  (placeOnDistinctInstances props <> Some true ->
   strategies (acc (placeSpreadAcross [] this)) = [spread BuiltInAttributes_InstanceId]
   /\ resolveParameter "PlacementStrategy" (placeSpreadAcross [] this)
      = Some VUndefined)
  /\ (placeOnDistinctInstances props = Some true ->
      strategies (acc this) = []
      /\ resolveParameter "PlacementStrategy" this = Some (VArray [])).
Proof.
  intros Hkeep Hnew. split; intros Hd.
  - change (placeSpreadAcross [] this) with (calls [PlaceSpreadAcross []] this).
    rewrite (resolve_PlacementStrategy _ _ _ _ _ _ Hkeep Hnew).
    rewrite (acc_after_calls _ _ _ _ _ _ Hnew), (distinct_false _ Hd).
    done.
  - change this with (calls [] this).
    rewrite (resolve_PlacementStrategy _ _ _ _ _ _ Hkeep Hnew).
    rewrite (acc_after_calls _ _ _ _ _ _ Hnew). unfold distinct. rewrite Hd.
    done.
Qed.

(** C2. When [placeOnDistinctInstances] is unset or false and no placement
    method has been called, both the PlacementConstraints and the
    PlacementStrategy deferred values resolve to [undefined], not to an
    empty array. *)
Theorem nothing_placed_resolves_absent id props tree this tree' :
  keeps_parameters C ->
  Ec2RunTask_new id props tree = Returned this tree' ->
  placeOnDistinctInstances props <> Some true ->
  resolveParameter "PlacementConstraints" this = Some VUndefined
  /\ resolveParameter "PlacementStrategy" this = Some VUndefined.
Proof.
  intros Hkeep Hnew Hd. change this with (calls [] this).
  rewrite (resolve_PlacementConstraints _ _ _ _ _ _ Hkeep Hnew).
  rewrite (resolve_PlacementStrategy _ _ _ _ _ _ Hkeep Hnew).
  rewrite (acc_after_calls _ _ _ _ _ _ Hnew), (distinct_false _ Hd).
  done.
Qed.


(** C4. [placeSpreadAcross] with one or more fields appends one object
    [{ Type: 'spread', Field: field }] per field, in argument order; with no
    field it appends the single object [{ Type: 'spread', Field: f }] where
    [f] is [BuiltInAttributes.InstanceId]. Nothing else of the object
    changes. *)
Theorem placeSpreadAcross_appends this :
  (forall (field : string) (fields : list string),
     placeSpreadAcross (field :: fields) this
     = {| base := base this;
          this_cluster := this_cluster this;
          acc := {| constraints := constraints (acc this);
                    strategies :=
                      strategies (acc this)
                      ++ map (fun f => VObject [("Type", VString "spread");
                                                ("Field", VString f)])
                           (field :: fields) |} |})
  /\ placeSpreadAcross [] this
     = {| base := base this;
          this_cluster := this_cluster this;
          acc := {| constraints := constraints (acc this);
                    strategies :=
                      strategies (acc this)
                      ++ [VObject [("Type", VString "spread");
                                   ("Field", VString BuiltInAttributes_InstanceId)]]
                  |} |}.
Proof.
  split; [intros field fields|]; unfold placeSpreadAcross;
    rewrite spread_fields_length.
  - exact (fold_push_strategy spread (field :: fields) this).
  - exact (fold_push_strategy spread [BuiltInAttributes_InstanceId] this).
Qed.

(** C5. When the task definition is not EC2-compatible, or has no default
    container, the constructor throws, the first of the two errors that
    applies, and the construct tree is as it was: the base constructor has
    not run and no object exists to be validated later. *)
Theorem incompatible_task_definition_throws id props tree :
  isEc2Compatible (compatibility (taskDefinition props)) = false
  \/ defaultContainer (taskDefinition props) = None ->
  Ec2RunTask_new id props tree
  = Thrown
      (if isEc2Compatible (compatibility (taskDefinition props))
       then no_essential_container else not_ec2_compatible)
      tree.
Proof.
  unfold Ec2RunTask_new.
  destruct (isEc2Compatible _); simpl; [|done].
  intros [|Hd]; [done|]. by rewrite Hd.
Qed.


(** C7. In a network mode other than AwsVpc, a [vpcPlacement] or a
    [securityGroup] among the properties makes the constructor throw: when
    the two checks on the task definition pass and the base constructor
    returns, what is thrown is the error of [validateNoNetworkingProps], with
    the tree as the base constructor left it. In AwsVpc mode the two
    properties are handed to [configureAwsVpcNetworking] and the constructor
    returns whenever the base constructor and that method do. *)
Theorem networking_props_only_in_AwsVpc id props tree :
  (networkMode (taskDefinition props) <> AwsVpc ->
   is_Some (vpcPlacement props) \/ is_Some (securityGroup props) ->
   exists message tree',
     Ec2RunTask_new id props tree = Thrown message tree'
     /\ forall b tree1,
          isEc2Compatible (compatibility (taskDefinition props)) = true ->
          is_Some (defaultContainer (taskDefinition props)) ->
          BaseRunTask_new id props tree = Returned b tree1 ->
          message = no_networking_props /\ tree' = tree1)
  /\ (networkMode (taskDefinition props) = AwsVpc ->
      forall b tree1 b' tree2,
        isEc2Compatible (compatibility (taskDefinition props)) = true ->
        is_Some (defaultContainer (taskDefinition props)) ->
        BaseRunTask_new id props tree = Returned b tree1 ->
        configureAwsVpcNetworking (vpc (cluster props)) false
          (vpcPlacement props) (securityGroup props)
          {| connections := connections b;
             _parameters := constructor_parameters (_parameters b);
             inherited := inherited b |} tree1
        = Returned b' tree2 ->
        exists this,
          Ec2RunTask_new id props tree = Returned this tree2 /\ base this = b').
Proof.
  split.
  - intros Hm Hsupplied. unfold Ec2RunTask_new.
    destruct (isEc2Compatible _); simpl;
      [|eexists _, _; split; [done|]; by intros ? ? [=]].
    destruct (defaultContainer _);
      [|eexists _, _; split; [done|]; by intros ? ? _ [? [=]]].
    unfold mbind at 1, M_bind at 1.
    destruct (BaseRunTask_new id props tree) as [b tree1|message tree1];
      [|eexists _, _; split; [done|]; by intros ? ? _ _ [=]].
    unfold mbind at 1, M_bind at 1.
    destruct (decide _) as [|_]; [done|].
    unfold validateNoNetworkingProps, mbind, M_bind, throw.
    exists no_networking_props, tree1. split.
    + destruct Hsupplied as [[x Hx]|[x Hx]]; rewrite Hx; [done|].
      by destruct (vpcPlacement props).
    + by intros ? ? _ _ [= _ ->].
  - intros Hm b tree1 b' tree2 Hc [container Hd] Hb Hn. unfold Ec2RunTask_new.
    rewrite Hc, Hd. simpl.
    unfold mbind at 1, M_bind at 1. rewrite Hb.
    unfold mbind at 1, M_bind at 1.
    destruct (decide _) as [_|]; [|done].
    unfold mbind, M_bind, mret, M_ret. simpl.
    unfold constructor_parameters in Hn. rewrite Hn.
    eexists. split; [done|].
    by destruct (placeOnDistinctInstances props) as [[]|].
Qed.

Lemma no_constraint_appended cs :
  (forall expressions, PlaceOnMemberOf expressions ∈ cs -> expressions = []) ->
  concat (map appended_constraints cs) = [].
Proof.
  induction cs as [|c cs IH]; intros Hcs; [done|]. simpl.
  rewrite IH by (intros ? ?; apply Hcs; by right).
  destruct c as [expressions| | |]; try done. simpl.
  rewrite (Hcs expressions) by left. done.
Qed.

(** C8. The claim: both accumulators only grow, and the two deferred values
    read them as they are at resolution time, so that later calls show in
    what they resolve to. The accumulators do only grow, and the strategies
    hold the entries of the calls in call order; but as long as no
    constraint has been added, whatever strategy calls were made after the
    constructor, the PlacementStrategy deferred value resolves to
    [undefined]. *)
Theorem later_strategies_not_resolved id props tree this tree' cs :
  keeps_parameters C ->
  Ec2RunTask_new id props tree = Returned this tree' ->
  placeOnDistinctInstances props <> Some true ->
  (forall expressions, PlaceOnMemberOf expressions ∈ cs -> expressions = []) ->
  strategies (acc (calls cs this)) = concat (map appended_strategies cs)
  /\ resolveParameter "PlacementStrategy" (calls cs this) = Some VUndefined.
Proof.
  intros Hkeep Hnew Hd Hcs.
  rewrite (resolve_PlacementStrategy _ _ _ _ _ _ Hkeep Hnew).
  rewrite (acc_after_calls _ _ _ _ _ _ Hnew), (distinct_false _ Hd).
  rewrite (no_constraint_appended _ Hcs). done.
Qed.

(** C10. When the constructor has returned, the LaunchType entry of
    [_parameters] is the string 'EC2', and it still is after any run of
    calls of the placement methods. *)
Theorem LaunchType_is_EC2 id props tree this tree' cs :
  keeps_parameters C ->
  Ec2RunTask_new id props tree = Returned this tree' ->
  _parameters (base (calls cs this)) !! "LaunchType" = Some (Plain (VString "EC2"))
  /\ resolveParameter "LaunchType" (calls cs this) = Some (VString "EC2").
Proof.
  intros Hkeep Hnew.
  destruct (Ec2RunTask_new_parameters _ _ _ _ _ Hkeep Hnew) as [m Hm].
  unfold resolveParameter. rewrite calls_eq. simpl.
  by rewrite Hm, constructor_parameters_LaunchType.
Qed.
End Properties.

(** ** Memoization of deferred values *)

Section Memoization.
Context {S V : Type}.
Implicit Types (s : S) (d : DeferredValue.t S V).

Lemma resolve_Concrete s (v : V) :
  DeferredValue.resolve s (DeferredValue.Concrete v)
  = {| DeferredValue.value := v;
       DeferredValue.cell := DeferredValue.Concrete v;
       DeferredValue.invoked := 0 |}.
Proof. reflexivity. Qed.

(** The first resolution of a closure that returns a plain value invokes it
    once and caches what it returned. *)
Lemma resolve_closure s (resolver : S -> V) :
  DeferredValue.resolve s
    (DeferredValue.Deferred (fun s' => DeferredValue.Concrete (resolver s')))
  = {| DeferredValue.value := resolver s;
       DeferredValue.cell := DeferredValue.Concrete (resolver s);
       DeferredValue.invoked := 1 |}.
Proof. reflexivity. Qed.

(** Once a value is cached, resolutions return it and invoke nothing,
    whatever the states they happen in. *)
Lemma resolve_each_Concrete (states : list S) (v : V) :
  DeferredValue.resolve_each states (DeferredValue.Concrete v)
  = (replicate (length states) v, DeferredValue.Concrete v, 0).
Proof.
  induction states as [|s states IH]; [done|].
  cbn [DeferredValue.resolve_each]. rewrite resolve_Concrete.
  cbn [DeferredValue.cell DeferredValue.value DeferredValue.invoked].
  by rewrite IH.
Qed.

(** C9. A deferred value is resolved any number of times, the first time in
    state [s] and then in the states of [rest], which may differ from [s] in
    any way. Every resolution returns the value the first one reached, and
    no resolver is invoked after the first resolution. For a deferred value
    made from a closure that returns a plain value, as the two tokens of the
    [Ec2RunTask] constructor are, every resolution returns what the closure
    computed in [s], and the closure has been invoked once in all. *)
Theorem resolve_invokes_resolver_once s (rest : list S) :
  (forall d,
     DeferredValue.resolve_each (s :: rest) d
     = (replicate (length (s :: rest)) (fst (DeferredValue.flatten s 0 d)),
        DeferredValue.Concrete (fst (DeferredValue.flatten s 0 d)),
        snd (DeferredValue.flatten s 0 d)))
  /\ (forall resolver : S -> V,
       DeferredValue.resolve_each (s :: rest)
         (DeferredValue.Deferred (fun s' => DeferredValue.Concrete (resolver s')))
       = (replicate (length (s :: rest)) (resolver s),
          DeferredValue.Concrete (resolver s),
          1)).
Proof.
  assert (forall d,
     DeferredValue.resolve_each (s :: rest) d
     = (replicate (length (s :: rest)) (fst (DeferredValue.flatten s 0 d)),
        DeferredValue.Concrete (fst (DeferredValue.flatten s 0 d)),
        snd (DeferredValue.flatten s 0 d))) as Hall.
  { intros d. cbn [DeferredValue.resolve_each]. unfold DeferredValue.resolve.
    destruct (DeferredValue.flatten s 0 d) as [v n].
    cbn [DeferredValue.cell DeferredValue.value DeferredValue.invoked fst snd].
    rewrite resolve_each_Concrete. simpl. by rewrite Nat.add_0_r. }
  split; [exact Hall|]. intros resolver. by rewrite Hall.
Qed.
End Memoization.

(** * Further properties of the class *)

Section Further.
Context {P : Packages} {C : Missing P}.
Implicit Types (this : Ec2RunTask) (props : Ec2RunTaskProps) (tree : Construct).
Implicit Types (cs : list Call) (id : string).

Local Open Scope list_scope.

(** ** How the placement methods compose *)

(** X1. [placeOnMemberOf] with no expression changes nothing, and one call
    with the expressions of two lists, one after the other, does what two
    successive calls do. *)
Theorem placeOnMemberOf_app this (expressions expressions' : list string) :
  placeOnMemberOf [] this = this
  /\ placeOnMemberOf (expressions ++ expressions') this
     = placeOnMemberOf expressions' (placeOnMemberOf expressions this).
Proof.
  split; [done|]. unfold placeOnMemberOf. apply fold_left_app.
Qed.

(** X2. When neither list of fields is empty, one [placeSpreadAcross] with
    the fields of both does what two successive calls do. (An empty list
    stands for the default field, so the condition is needed.) *)
Theorem placeSpreadAcross_app this (fields fields' : list string) :
  fields <> [] -> fields' <> [] ->
  placeSpreadAcross (fields ++ fields') this
  = placeSpreadAcross fields' (placeSpreadAcross fields this).
Proof.
  intros Hf Hf'. unfold placeSpreadAcross. rewrite !spread_fields_length.
  assert (forall l : list string, l <> [] -> spread_fields l = l) as Hne
    by (by intros []).
  rewrite (Hne fields), (Hne fields') by done.
  rewrite Hne by (intros [? _]%app_eq_nil; done).
  apply fold_left_app.
Qed.

(** X3. A call that adds constraints and a call that adds strategies can be
    made in either order, with the same object as the result; two calls
    that add different strategies cannot: the order of the calls is the
    order of the entries. *)
Theorem constraint_and_strategy_calls_commute this
    (expressions fields : list string) (resource : string) :
  placeOnMemberOf expressions (placeSpreadAcross fields this)
  = placeSpreadAcross fields (placeOnMemberOf expressions this)
  /\ placeOnMemberOf expressions (placePackedBy resource this)
     = placePackedBy resource (placeOnMemberOf expressions this)
  /\ placeOnMemberOf expressions (placeRandomly this)
     = placeRandomly (placeOnMemberOf expressions this)
  /\ placeRandomly (placePackedBy resource this)
     <> placePackedBy resource (placeRandomly this).
Proof.
  repeat split.
  - change (call (call this (PlaceSpreadAcross fields)) (PlaceOnMemberOf expressions)
            = call (call this (PlaceOnMemberOf expressions)) (PlaceSpreadAcross fields)).
    rewrite !call_eq. simpl. by rewrite !app_nil_r.
  - change (call (call this (PlacePackedBy resource)) (PlaceOnMemberOf expressions)
            = call (call this (PlaceOnMemberOf expressions)) (PlacePackedBy resource)).
    rewrite !call_eq. simpl. by rewrite !app_nil_r.
  - change (call (call this PlaceRandomly) (PlaceOnMemberOf expressions)
            = call (call this (PlaceOnMemberOf expressions)) PlaceRandomly).
    rewrite !call_eq. simpl. by rewrite !app_nil_r.
  - intros H. apply (f_equal (fun t => strategies (acc t))) in H.
    simpl in H. unfold push in H. rewrite <- !app_assoc in H.
    apply app_inv_head in H. discriminate.
Qed.

(** X4. Whatever placement calls are made, at whatever point, the entries
    both accumulators held before stay where they were: the lists before
    are prefixes of the lists after. *)
Theorem accumulators_only_grow this cs cs' :
  constraints (acc (calls cs this))
    `prefix_of` constraints (acc (calls (cs ++ cs') this))
  /\ strategies (acc (calls cs this))
       `prefix_of` strategies (acc (calls (cs ++ cs') this)).
Proof.
  rewrite calls_app. split;
    [apply calls_constraints_prefix | apply calls_strategies_prefix].
Qed.

(** X5. The placement methods touch nothing but the accumulators: the
    inherited state and [this.cluster] are as before, and so is what
    [validate()] returns. *)
Theorem placement_calls_keep_the_rest this cs :
  base (calls cs this) = base this
  /\ this_cluster (calls cs this) = this_cluster this
  /\ forall now : Construct, validate (calls cs this) now = validate this now.
Proof. rewrite calls_eq. by repeat split. Qed.

(** ** What the deferred values resolve to *)

(** X6. After the constructor and any run of placement calls, the
    PlacementConstraints deferred value resolves to [undefined] when there
    is no constraint, and otherwise to all of them: the distinctInstance
    entry first, if [placeOnDistinctInstances] was set and true, and then
    the memberOf entries in the order of the calls and of their
    arguments. *)
Theorem PlacementConstraints_in_call_order id props tree this tree' cs :
  keeps_parameters C ->
  Ec2RunTask_new id props tree = Returned this tree' ->
  constraints (acc (calls cs this))
  = (if distinct props then [distinctInstance] else [])
    ++ concat (map appended_constraints cs)
  /\ resolveParameter "PlacementConstraints" (calls cs this)
     = Some (match constraints (acc (calls cs this)) with
             | [] => VUndefined
             | entries => VArray entries
             end).
Proof.
  intros Hkeep Hnew.
  rewrite (resolve_PlacementConstraints _ _ _ _ _ _ Hkeep Hnew).
  rewrite (acc_after_calls _ _ _ _ _ _ Hnew). split; [done|].
  unfold PlacementConstraints_resolver. simpl.
  by destruct (_ ++ _).
Qed.

(** X7. After the constructor and any run of placement calls that leaves at
    least one constraint, the PlacementStrategy deferred value resolves to
    the strategy entries of the calls, in the order of the calls. *)
Theorem PlacementStrategy_with_a_constraint id props tree this tree' cs :
  keeps_parameters C ->
  Ec2RunTask_new id props tree = Returned this tree' ->
  constraints (acc (calls cs this)) <> [] ->
  resolveParameter "PlacementStrategy" (calls cs this)
  = Some (VArray (concat (map appended_strategies cs))).
Proof.
  intros Hkeep Hnew.
  rewrite (resolve_PlacementStrategy _ _ _ _ _ _ Hkeep Hnew).
  rewrite (acc_after_calls _ _ _ _ _ _ Hnew).
  unfold PlacementStrategy_resolver. simpl.
  by destruct (_ ++ _).
Qed.

(** X8. After the constructor and any run of placement calls, every
    constraint is the object [{ Type: 'distinctInstance' }] or an object
    [{ Type: 'memberOf', expression }], and every strategy is an object
    [{ Type: 'spread', Field }], [{ Type: 'binpack', Field }] or
    [{ Type: 'random' }]: no entry has another Type or other fields. *)
Theorem entries_have_known_types id props tree this tree' cs :
  Ec2RunTask_new id props tree = Returned this tree' ->
  Forall (fun entry =>
            entry = VObject [("Type", VString "distinctInstance")]
            \/ exists expression,
                 entry = VObject [("Type", VString "memberOf");
                                  ("expression", VString expression)])
    (constraints (acc (calls cs this)))
  /\ Forall (fun entry =>
               (exists field,
                  entry = VObject [("Type", VString "spread");
                                   ("Field", VString field)])
               \/ (exists resource,
                     entry = VObject [("Type", VString "binpack");
                                      ("Field", VString resource)])
               \/ entry = VObject [("Type", VString "random")])
       (strategies (acc (calls cs this))).
Proof.
  intros Hnew. rewrite (acc_after_calls _ _ _ _ _ _ Hnew). simpl. split.
  - apply Forall_app. split.
    + destruct (distinct props); [|done]. apply Forall_singleton. by left.
    + apply Forall_concat, Forall_map, Forall_forall. intros c _.
      destruct c as [expressions| | |]; simpl; try done.
      apply Forall_map, Forall_forall. intros expression _. right.
      by exists expression.
  - apply Forall_concat, Forall_map, Forall_forall. intros c _.
    destruct c as [expressions|fields|resource|]; simpl; try done.
    + apply Forall_map, Forall_forall. intros field _. left. by exists field.
    + apply Forall_singleton. right. left. by exists resource.
    + apply Forall_singleton. by repeat right.
Qed.

(** ** The constructor *)

(** X9. The constructor returns exactly when the task definition is
    EC2-compatible and has a default container, the base constructor
    returns, and then: in AwsVpc mode, [configureAwsVpcNetworking] returns;
    in any other mode, neither [vpcPlacement] nor [securityGroup] is
    given. *)
Theorem Ec2RunTask_new_returns_iff id props tree :
  (exists this tree', Ec2RunTask_new id props tree = Returned this tree')
  <-> isEc2Compatible (compatibility (taskDefinition props)) = true
      /\ is_Some (defaultContainer (taskDefinition props))
      /\ exists b tree1,
           BaseRunTask_new id props tree = Returned b tree1
           /\ if decide (networkMode (taskDefinition props) = AwsVpc)
              then exists b' tree2,
                     configureAwsVpcNetworking (vpc (cluster props)) false
                       (vpcPlacement props) (securityGroup props)
                       {| connections := connections b;
                          _parameters := constructor_parameters (_parameters b);
                          inherited := inherited b |} tree1
                     = Returned b' tree2
              else vpcPlacement props = None /\ securityGroup props = None.
Proof.
  split.
  - intros (this & tree' & Hnew).
    apply Ec2RunTask_new_returned in Hnew
      as (Hc & Hd & _ & _ & b & tree1 & Hb & Hcase).
    split; [done|]. split; [done|]. exists b, tree1. split; [done|].
    destruct (decide _) as [Hm|Hm];
      destruct Hcase as [[Hm' Hn]|(Hm' & Hv & Hs & _)]; try done.
    by eexists _, _.
  - intros (Hc & [container Hd] & b & tree1 & Hb & Hrest).
    unfold Ec2RunTask_new. rewrite Hc, Hd. simpl.
    unfold mbind at 1, M_bind at 1. rewrite Hb.
    unfold mbind at 1, M_bind at 1.
    destruct (decide _) as [Hm|Hm].
    + destruct Hrest as (b' & tree2 & Hn).
      unfold mbind, M_bind, mret, M_ret. simpl.
      unfold constructor_parameters in Hn. rewrite Hn. by eexists _, _.
    + destruct Hrest as [Hv Hs].
      unfold validateNoNetworkingProps, mbind, M_bind, mret, M_ret, gets.
      rewrite Hv, Hs. by eexists _, _.
Qed.

(** X10. Whatever the constructor throws is one of its own three errors or
    is thrown by a collaborator. The two errors about the task definition
    leave the tree untouched; the error about the networking properties is
    thrown after the base constructor has run, on the tree as it left it. *)
Theorem Ec2RunTask_new_thrown id props tree message tree' :
  Ec2RunTask_new id props tree = Thrown message tree' ->
  (isEc2Compatible (compatibility (taskDefinition props)) = false
   /\ message = not_ec2_compatible /\ tree' = tree)
  \/ (isEc2Compatible (compatibility (taskDefinition props)) = true
      /\ defaultContainer (taskDefinition props) = None
      /\ message = no_essential_container /\ tree' = tree)
  \/ BaseRunTask_new id props tree = Thrown message tree'
  \/ exists b tree1,
       BaseRunTask_new id props tree = Returned b tree1
       /\ ((networkMode (taskDefinition props) = AwsVpc
            /\ configureAwsVpcNetworking (vpc (cluster props)) false
                 (vpcPlacement props) (securityGroup props)
                 {| connections := connections b;
                    _parameters := constructor_parameters (_parameters b);
                    inherited := inherited b |} tree1
               = Thrown message tree')
           \/ (networkMode (taskDefinition props) <> AwsVpc
               /\ (is_Some (vpcPlacement props) \/ is_Some (securityGroup props))
               /\ message = no_networking_props /\ tree' = tree1)).
Proof.
  unfold Ec2RunTask_new.
  destruct (isEc2Compatible _) eqn:Hc; simpl;
    [|intros [= <- <-]; by left].
  destruct (defaultContainer _) as [container|] eqn:Hd;
    [|intros [= <- <-]; right; by left].
  unfold mbind at 1, M_bind at 1.
  destruct (BaseRunTask_new id props tree) as [b tree1|message1 tree1] eqn:Hb;
    [|intros [= <- <-]; right; right; by left].
  intros Hthrown. right. right. right. exists b, tree1. split; [done|].
  revert Hthrown. unfold mbind at 1, M_bind at 1.
  destruct (decide _) as [Hm|Hm].
  - unfold mbind, M_bind, mret, M_ret. simpl.
    destruct (configureAwsVpcNetworking _ _ _ _ _ _) as [b' tree2|m2 tree2] eqn:Hn;
      [discriminate|].
    intros [= <- <-]. by left.
  - unfold validateNoNetworkingProps, mbind, M_bind, mret, M_ret, throw, gets.
    destruct (vpcPlacement props) eqn:Hv.
    + intros [= <- <-]. right. repeat split; try done. left. by eexists.
    + destruct (securityGroup props) eqn:Hs; [|discriminate].
      intros [= <- <-]. right. repeat split; try done. right. by eexists.
Qed.

(** X11. The constructor writes three entries of [_parameters] and no
    other: under any other key, after the constructor and any run of
    placement calls, there is what the base constructor left there. *)
Theorem constructor_keeps_other_parameters id props tree this tree' cs
    (name : string) :
  keeps_parameters C ->
  Ec2RunTask_new id props tree = Returned this tree' ->
  name <> "LaunchType" ->
  name <> "PlacementConstraints" ->
  name <> "PlacementStrategy" ->
  exists b tree1,
    BaseRunTask_new id props tree = Returned b tree1
    /\ _parameters (base (calls cs this)) !! name = _parameters b !! name.
Proof.
  intros Hkeep Hnew H1 H2 H3.
  apply Ec2RunTask_new_returned in Hnew
    as (_ & _ & _ & _ & b & tree1 & Hb & Hcase).
  exists b, tree1. split; [done|]. rewrite calls_eq. simpl.
  assert (_parameters (base this) = constructor_parameters (_parameters b)) as ->.
  { destruct Hcase as [[_ Hn]|(_ & _ & _ & Hp & _)]; [|done].
    by apply Hkeep in Hn. }
  unfold constructor_parameters. by rewrite !lookup_insert_ne.
Qed.

(** X12. In a network mode other than AwsVpc, the constructor adds to the
    connections the base constructor made the security groups the cluster
    has once the base constructor has run, changes nothing else of the
    inherited state besides its three parameters, and leaves the tree as
    the base constructor left it. *)
Theorem other_modes_copy_security_groups id props tree this tree' :
  networkMode (taskDefinition props) <> AwsVpc ->
  Ec2RunTask_new id props tree = Returned this tree' ->
  exists b,
    BaseRunTask_new id props tree = Returned b tree'
    /\ base this
       = {| connections :=
              addSecurityGroup (securityGroups (cluster props) tree')
                (connections b);
            _parameters := constructor_parameters (_parameters b);
            inherited := inherited b |}.
Proof.
  intros Hm. unfold Ec2RunTask_new.
  destruct (isEc2Compatible _); simpl; [|discriminate].
  destruct (defaultContainer _); [|discriminate].
  unfold mbind at 1, M_bind at 1.
  destruct (BaseRunTask_new id props tree) as [b tree1|]; [|discriminate].
  unfold mbind at 1, M_bind at 1.
  destruct (decide _) as [|_]; [done|].
  unfold validateNoNetworkingProps, mbind, M_bind, mret, M_ret, throw, gets.
  destruct (vpcPlacement props); [discriminate|].
  destruct (securityGroup props); [discriminate|].
  intros [= <- <-]. exists b. split; [done|].
  by destruct (placeOnDistinctInstances props) as [[]|].
Qed.
End Further.

(** * The model at work on the small instance *)

Lemma demo_keeps_parameters : keeps_parameters demo.
Proof. intros v a placement group b tree b' tree' [= <- _]. reflexivity. Defined.

Lemma PlacementStrategy_tests_constraints_witness :
  (exists this tree',
     Ec2RunTask_new (C := demo) "Run" demo_props [] = Returned this tree'
     /\ strategies (acc (placeSpreadAcross (C := demo) [] this)) = [spread "instanceId"]
     /\ resolveParameter "PlacementStrategy" (placeSpreadAcross (C := demo) [] this)
        = Some VUndefined)
  /\ (exists this tree',
        Ec2RunTask_new (C := demo) "Run" demo_props_distinct [] = Returned this tree'
        /\ strategies (acc this) = []
        /\ resolveParameter "PlacementStrategy" this = Some (VArray [])).
Proof.
  split; eexists _, _; (split; [vm_compute; reflexivity|]).
  - apply (proj1 (PlacementStrategy_tests_constraints (C := demo)
                    "Run" demo_props [] _ _ demo_keeps_parameters eq_refl)).
    discriminate.
  - apply (proj2 (PlacementStrategy_tests_constraints (C := demo)
                    "Run" demo_props_distinct [] _ _ demo_keeps_parameters eq_refl)).
    reflexivity.
Defined.

Lemma nothing_placed_resolves_absent_witness :
  exists this tree',
    Ec2RunTask_new (C := demo) "Run" demo_props [] = Returned this tree'
    /\ resolveParameter "PlacementConstraints" this = Some VUndefined
    /\ resolveParameter "PlacementStrategy" this = Some VUndefined.
Proof.
  eexists _, _. split; [vm_compute; reflexivity|].
  apply (nothing_placed_resolves_absent (C := demo)
           "Run" demo_props [] _ _ demo_keeps_parameters eq_refl).
  discriminate.
Defined.


Lemma incompatible_task_definition_throws_witness :
  Ec2RunTask_new (C := demo) "Service" demo_props_fargate ["Cluster"]
  = Thrown (P := demo_packages) not_ec2_compatible ["Cluster"]
  /\ Ec2RunTask_new (C := demo) "Run" demo_props_no_container ["Cluster"]
     = Thrown (P := demo_packages) no_essential_container ["Cluster"].
Proof.
  split.
  - apply (incompatible_task_definition_throws (C := demo)
             "Service" demo_props_fargate ["Cluster"]).
    left. reflexivity.
  - apply (incompatible_task_definition_throws (C := demo)
             "Run" demo_props_no_container ["Cluster"]).
    right. reflexivity.
Defined.


Lemma networking_props_only_in_AwsVpc_witness :
  (exists message tree',
     Ec2RunTask_new (C := demo) "Run" demo_props_bridge_group [] = Thrown message tree')
  /\ (exists this,
        Ec2RunTask_new (C := demo) "Run" demo_props_awsvpc []
        = Returned (P := demo_packages) this ["Run"]).
Proof.
  split.
  - destruct (proj1 (networking_props_only_in_AwsVpc (C := demo)
                       "Run" demo_props_bridge_group []))
      as (message & tree' & Hthrown & _).
    + discriminate.
    + right. eexists. reflexivity.
    + exists message, tree'. exact Hthrown.
  - destruct (proj2 (networking_props_only_in_AwsVpc (C := demo)
                       "Run" demo_props_awsvpc []) eq_refl
                _ _ _ _ eq_refl (ex_intro _ _ eq_refl) eq_refl eq_refl)
      as (this & Hreturned & _).
    exists this. exact Hreturned.
Defined.

Lemma later_strategies_not_resolved_witness :
  exists this tree',
    Ec2RunTask_new (C := demo) "Run" demo_props [] = Returned this tree'
    /\ strategies (acc (calls (C := demo) [PlaceRandomly; PlacePackedBy "memory"] this))
       = [random; binpack "memory"]
    /\ resolveParameter "PlacementStrategy"
         (calls (C := demo) [PlaceRandomly; PlacePackedBy "memory"] this)
       = Some VUndefined.
Proof.
  eexists _, _. split; [vm_compute; reflexivity|].
  apply (later_strategies_not_resolved (C := demo)
           "Run" demo_props [] _ _ [PlaceRandomly; PlacePackedBy "memory"]
           demo_keeps_parameters eq_refl).
  - discriminate.
  - intros expressions Hin.
    apply elem_of_cons in Hin as [Hin|Hin]; [discriminate|].
    apply elem_of_cons in Hin as [Hin|Hin]; [discriminate|].
    by apply elem_of_nil in Hin.
Defined.

Lemma LaunchType_is_EC2_witness :
  exists this tree',
    Ec2RunTask_new (C := demo) "Run" demo_props_awsvpc [] = Returned this tree'
    /\ resolveParameter "LaunchType"
         (calls (C := demo) [PlaceOnMemberOf ["attribute:ecs.instance-type == t2.micro"];
                             PlaceSpreadAcross []] this)
       = Some (VString "EC2").
Proof.
  eexists _, _. split; [vm_compute; reflexivity|].
  apply (LaunchType_is_EC2 (C := demo) "Run" demo_props_awsvpc [] _ _
           [PlaceOnMemberOf ["attribute:ecs.instance-type == t2.micro"];
            PlaceSpreadAcross []]
           demo_keeps_parameters eq_refl).
Defined.

Lemma demo_with_parameters_keeps_parameters : keeps_parameters demo_with_parameters.
Proof. intros v a placement group b tree b' tree' [= <- _]. reflexivity. Defined.

Lemma placeSpreadAcross_app_witness :
  placeSpreadAcross (C := demo)
    (["attribute:ecs.availability-zone"] ++ ["instanceId"]) demo_object
  = placeSpreadAcross (C := demo) ["instanceId"]
      (placeSpreadAcross (C := demo) ["attribute:ecs.availability-zone"] demo_object).
Proof.
  apply (placeSpreadAcross_app (C := demo) demo_object
           ["attribute:ecs.availability-zone"] ["instanceId"]); discriminate.
Defined.

Lemma PlacementConstraints_in_call_order_witness :
  exists this tree',
    Ec2RunTask_new (C := demo) "Run" demo_props_distinct [] = Returned this tree'
    /\ resolveParameter "PlacementConstraints"
         (calls (C := demo)
            [PlaceOnMemberOf ["a"]; PlaceRandomly; PlaceOnMemberOf ["b"; "c"]] this)
       = Some (VArray [distinctInstance; memberOf "a"; memberOf "b"; memberOf "c"]).
Proof.
  eexists _, _. split; [vm_compute; reflexivity|].
  etrans.
  - apply (PlacementConstraints_in_call_order (C := demo)
             "Run" demo_props_distinct [] _ _
             [PlaceOnMemberOf ["a"]; PlaceRandomly; PlaceOnMemberOf ["b"; "c"]]
             demo_keeps_parameters eq_refl).
  - reflexivity.
Defined.

Lemma PlacementStrategy_with_a_constraint_witness :
  exists this tree',
    Ec2RunTask_new (C := demo) "Run" demo_props_distinct [] = Returned this tree'
    /\ resolveParameter "PlacementStrategy"
         (calls (C := demo) [PlaceRandomly; PlaceSpreadAcross []] this)
       = Some (VArray [random; spread "instanceId"]).
Proof.
  eexists _, _. split; [vm_compute; reflexivity|].
  apply (PlacementStrategy_with_a_constraint (C := demo)
           "Run" demo_props_distinct [] _ _ [PlaceRandomly; PlaceSpreadAcross []]
           demo_keeps_parameters eq_refl).
  discriminate.
Defined.

Lemma entries_have_known_types_witness :
  exists this tree',
    Ec2RunTask_new (C := demo) "Run" demo_props_distinct [] = Returned this tree'
    /\ Forall (fun entry =>
                 entry = VObject [("Type", VString "distinctInstance")]
                 \/ exists expression,
                      entry = VObject [("Type", VString "memberOf");
                                       ("expression", VString expression)])
         (constraints
            (acc (calls (C := demo) [PlaceOnMemberOf ["a"]; PlacePackedBy "cpu"] this)))
    /\ Forall (fun entry =>
                 (exists field,
                    entry = VObject [("Type", VString "spread");
                                     ("Field", VString field)])
                 \/ (exists resource,
                       entry = VObject [("Type", VString "binpack");
                                        ("Field", VString resource)])
                 \/ entry = VObject [("Type", VString "random")])
         (strategies
            (acc (calls (C := demo) [PlaceOnMemberOf ["a"]; PlacePackedBy "cpu"] this))).
Proof.
  eexists _, _. split; [vm_compute; reflexivity|].
  apply (entries_have_known_types (C := demo)
           "Run" demo_props_distinct [] _ _
           [PlaceOnMemberOf ["a"]; PlacePackedBy "cpu"] eq_refl).
Defined.

Lemma Ec2RunTask_new_thrown_witness :
  exists message tree',
    Ec2RunTask_new (C := demo) "Run" demo_props_bridge_group [] = Thrown message tree'
    /\ exists b,
         demo_BaseRunTask_new "Run" demo_props_bridge_group []
         = Returned (P := demo_packages) b tree'.
Proof.
  eexists _, _. split; [vm_compute; reflexivity|].
  destruct (Ec2RunTask_new_thrown (C := demo)
              "Run" demo_props_bridge_group [] _ _ eq_refl)
    as [(H & _)|[(_ & H & _)|[H|(b & tree1 & Hb & [(H & _)|(_ & _ & _ & H)])]]];
    try discriminate H.
  exists b. subst tree1. exact Hb.
Defined.

Lemma constructor_keeps_other_parameters_witness :
  exists this tree',
    Ec2RunTask_new (C := demo_with_parameters) "Run" demo_props_awsvpc []
    = Returned this tree'
    /\ _parameters
         (base (calls (C := demo_with_parameters) [PlaceOnMemberOf ["a"]] this))
       !! "Cluster"
       = Some (Plain (VString "arn:cluster"))
    /\ _parameters
         (base (calls (C := demo_with_parameters) [PlaceOnMemberOf ["a"]] this))
       !! "LaunchType"
       = Some (Plain (VString "EC2")).
Proof.
  eexists _, _. split; [vm_compute; reflexivity|]. split; [|reflexivity].
  destruct (constructor_keeps_other_parameters (C := demo_with_parameters)
              "Run" demo_props_awsvpc [] _ _ [PlaceOnMemberOf ["a"]] "Cluster"
              demo_with_parameters_keeps_parameters eq_refl)
    as (b & tree1 & Hb & Hname); try discriminate.
  etrans; [exact Hname|].
  injection Hb as <- _. reflexivity.
Defined.

Lemma other_modes_copy_security_groups_witness :
  exists this tree',
    Ec2RunTask_new (C := demo) "Run" demo_props demo_tree_capacity
    = Returned this tree'
    /\ connections (base this)
       = ["Cluster/AutoScalingGroup/InstanceSecurityGroup"].
Proof.
  eexists _, _. split; [vm_compute; reflexivity|].
  destruct (other_modes_copy_security_groups (C := demo)
              "Run" demo_props demo_tree_capacity _ _ ltac:(discriminate) eq_refl)
    as (b & Hb & Hbase).
  etrans; [exact (f_equal connections Hbase)|].
  injection Hb as <-. reflexivity.
Defined.

Lemma placeSpreadAcross_appends_witness :
  strategies
    (acc (placeSpreadAcross (C := demo) ["attribute:ecs.availability-zone"; "instanceId"]
            (placeSpreadAcross (C := demo) [] demo_object)))
  = [VObject [("Type", VString "spread"); ("Field", VString "instanceId")];
     VObject [("Type", VString "spread");
              ("Field", VString "attribute:ecs.availability-zone")];
     VObject [("Type", VString "spread"); ("Field", VString "instanceId")]].
Proof.
  rewrite (proj1 (placeSpreadAcross_appends (C := demo)
                    (placeSpreadAcross (C := demo) [] demo_object))
             "attribute:ecs.availability-zone" ["instanceId"]).
  rewrite (proj2 (placeSpreadAcross_appends (C := demo) demo_object)).
  reflexivity.
Defined.
